(** * Template LLM provider selection

    A shallow embedding of [servers/fastapi/utils/template_llm_provider.py]
    and the properties of its three entry points:
    [get_template_llm_provider], [should_use_local_model_for_templates]
    and [should_use_api_model_for_templates].

    The Python functions take no arguments: they read the operator's
    configuration through two imported lookups, either of which may raise.
    Both the configuration and the exceptions are made explicit here, as a
    state-and-exception monad over an abstract world. *)

From Stdlib Require Import String List Bool.
Import ListNotations.
Open Scope string_scope.

(** ** The provider enumeration *)

(** Modelled from the spec: the enumeration [LLMProvider] of
    [enums.llm_provider] is imported by the source but is not part of it.
    The source names three members, [OPENAI] (the hosted API backend),
    [OLLAMA] and [CUSTOM] (the two self-hosted kinds). [OTHER] stands for
    any further member the enumeration declares, told apart by its name. *)
Inductive LLMProvider : Type :=
| OPENAI
| OLLAMA
| CUSTOM
| OTHER (member : string).

(** [==] on enumeration members. *)
Definition LLMProvider_eqb (a b : LLMProvider) : bool :=
  match a, b with
  | OPENAI, OPENAI => true
  | OLLAMA, OLLAMA => true
  | CUSTOM, CUSTOM => true
  | OTHER m, OTHER n => String.eqb m n
  | _, _ => false
  end.

(** [x in [a, b, ...]] on a Python list of members. *)
Definition py_in (x : LLMProvider) (l : list LLMProvider) : bool :=
  existsb (LLMProvider_eqb x) l.

(** [setting == "literal"], where [setting] is [None] or a [str]: [None]
    equals no string. *)
Definition py_eq_str (setting : option string) (literal : string) : bool :=
  match setting with
  | Some s => String.eqb s literal
  | None => false
  end.

(** ** Effects: reading the configuration, raising *)

Section Effects.
Context {World Exn : Type}.

(** A computation runs in a world, leaves a world behind and either raises
    or returns. *)
Definition Eff (A : Type) : Type := World -> World * (Exn + A).

Definition ret {A : Type} (a : A) : Eff A :=
  fun w => (w, inr a).

(** Sequencing: an exception of the first computation skips the rest and
    keeps the world the first computation left. *)
Definition bind {A B : Type} (m : Eff A) (k : A -> Eff B) : Eff B :=
  fun w =>
    match m w with
    | (w', inl e) => (w', inl e)
    | (w', inr a) => k a w'
    end.

End Effects.

Arguments Eff : clear implicits.

Notation "x <- m ;; k" := (bind m (fun x => k))
  (at level 61, m at next level, right associativity).

(** ** The selector *)

Section Selector.
Variables World Exn : Type.

(** The two imported lookups, [utils.get_env.get_template_llm_provider_env]
    (the [TEMPLATE_LLM_PROVIDER] setting, [None] when unset) and
    [utils.llm_provider.get_llm_provider] (the provider configured for
    content generation). *)
Variable get_template_llm_provider_env : Eff World Exn (option string).
Variable get_llm_provider : Eff World Exn LLMProvider.

Definition get_template_llm_provider : Eff World Exn LLMProvider :=
  template_provider_setting <- get_template_llm_provider_env ;;
  content_provider <- get_llm_provider ;;
  if py_eq_str template_provider_setting "api" then
    ret OPENAI
  else if py_eq_str template_provider_setting "local" then
    ret content_provider
  else if py_in content_provider [OLLAMA; CUSTOM] then
    ret content_provider
  else
    ret OPENAI.

Definition should_use_local_model_for_templates : Eff World Exn bool :=
  provider <- get_template_llm_provider ;;
  ret (py_in provider [OLLAMA; CUSTOM]).

Definition should_use_api_model_for_templates : Eff World Exn bool :=
  provider <- get_template_llm_provider ;;
  ret (LLMProvider_eqb provider OPENAI).

(** One of the two lookups raises [e] when [get_template_llm_provider] is
    called in world [w], and [w'] is the world at that point. The setting is
    looked up first; the content provider is looked up only once the setting
    has been read. *)
Inductive lookup_raises (w w' : World) (e : Exn) : Prop :=
| setting_lookup_raises :
    get_template_llm_provider_env w = (w', inl e) ->
    lookup_raises w w' e
| content_lookup_raises (w1 : World) (setting : option string) :
    get_template_llm_provider_env w = (w1, inr setting) ->
    get_llm_provider w1 = (w', inl e) ->
    lookup_raises w w' e.

End Selector.

Arguments get_template_llm_provider {World Exn}.
Arguments should_use_local_model_for_templates {World Exn}.
Arguments should_use_api_model_for_templates {World Exn}.
Arguments lookup_raises {World Exn}.

(** The value the branches of [get_template_llm_provider] return, as a
    function of the two values read; the proofs below name it. *)
Definition branch_value (setting : option string) (content_provider : LLMProvider)
  : LLMProvider :=
  if py_eq_str setting "api" then OPENAI
  else if py_eq_str setting "local" then content_provider
  else if py_in content_provider [OLLAMA; CUSTOM] then content_provider
  else OPENAI.

(** ** A fixed configuration to run the selector on *)

Module Fixture.

(** What the operator configured: the outcome of each lookup, and a count of
    the lookups made so far. *)
Record Config : Type := mkConfig {
  template_setting : string + option string;
  content : string + LLMProvider;
  reads : nat
}.

Definition read (c : Config) : Config :=
  mkConfig (template_setting c) (content c) (S (reads c)).

Definition setting_lookup : Eff Config string (option string) :=
  fun c => (read c, template_setting c).

Definition content_lookup : Eff Config string LLMProvider :=
  fun c => (read c, content c).

Definition resolve : Eff Config string LLMProvider :=
  get_template_llm_provider setting_lookup content_lookup.

Definition uses_local : Eff Config string bool :=
  should_use_local_model_for_templates setting_lookup content_lookup.

Definition uses_api : Eff Config string bool :=
  should_use_api_model_for_templates setting_lookup content_lookup.

(** Both lookups succeed; nothing has been read yet. *)
Definition configured (setting : option string) (p : LLMProvider) : Config :=
  mkConfig (inr setting) (inr p) 0.

(** The same configuration after [n] lookups. *)
Definition after (n : nat) (setting : option string) (p : LLMProvider)
  : Config :=
  mkConfig (inr setting) (inr p) n.

End Fixture.

(** ** Comparisons *)

Lemma LLMProvider_eqb_spec (a b : LLMProvider) :
  reflect (a = b) (LLMProvider_eqb a b).
Proof.
  destruct a as [ | | | m], b as [ | | | n]; simpl;
    try (constructor; congruence).
  destruct (String.eqb_spec m n) as [E | N]; constructor; congruence.
Qed.

Lemma LLMProvider_eqb_true_iff (a b : LLMProvider) :
  LLMProvider_eqb a b = true <-> a = b.
Proof.
  destruct (LLMProvider_eqb_spec a b) as [E | N]; split; congruence.
Qed.

Lemma py_in_local_iff (p : LLMProvider) :
  py_in p [OLLAMA; CUSTOM] = true <-> p = OLLAMA \/ p = CUSTOM.
Proof.
  unfold py_in; simpl.
  rewrite !orb_true_iff, !LLMProvider_eqb_true_iff.
  intuition congruence.
Qed.

Lemma py_in_local_false_iff (p : LLMProvider) :
  py_in p [OLLAMA; CUSTOM] = false <-> p <> OLLAMA /\ p <> CUSTOM.
Proof.
  rewrite <- not_true_iff_false, py_in_local_iff. tauto.
Qed.

Lemma py_eq_str_true_iff (setting : option string) (literal : string) :
  py_eq_str setting literal = true <-> setting = Some literal.
Proof.
  destruct setting as [s | ]; simpl.
  - rewrite String.eqb_eq. split; congruence.
  - split; discriminate.
Qed.

Lemma py_eq_str_false_iff (setting : option string) (literal : string) :
  py_eq_str setting literal = false <-> setting <> Some literal.
Proof.
  rewrite <- not_true_iff_false, py_eq_str_true_iff. tauto.
Qed.

(** Outside "api" and "local" the branches fall to the default policy. *)
Lemma branch_value_default (setting : option string) (p : LLMProvider) :
  setting <> Some "api" ->
  setting <> Some "local" ->
  branch_value setting p = if py_in p [OLLAMA; CUSTOM] then p else OPENAI.
Proof.
  intros Napi Nlocal. unfold branch_value.
  apply py_eq_str_false_iff in Napi, Nlocal.
  rewrite Napi, Nlocal. reflexivity.
Qed.

(** ** Running the selector *)

Section SelectorFacts.
Context {World Exn : Type}.
Variable get_template_llm_provider_env : Eff World Exn (option string).
Variable get_llm_provider : Eff World Exn LLMProvider.

Local Abbreviation resolve :=
  (get_template_llm_provider get_template_llm_provider_env get_llm_provider).
Local Abbreviation uses_local :=
  (should_use_local_model_for_templates
     get_template_llm_provider_env get_llm_provider).
Local Abbreviation uses_api :=
  (should_use_api_model_for_templates
     get_template_llm_provider_env get_llm_provider).

(** Once both lookups have returned, the selector returns too, in the world
    the second lookup left. *)
Lemma resolve_returns (w w1 w2 : World) setting content_provider :
  get_template_llm_provider_env w = (w1, inr setting) ->
  get_llm_provider w1 = (w2, inr content_provider) ->
  resolve w = (w2, inr (branch_value setting content_provider)).
Proof.
  intros Hs Hc. unfold get_template_llm_provider, bind, branch_value.
  rewrite Hs, Hc.
  destruct (py_eq_str setting "api"); [reflexivity | ].
  destruct (py_eq_str setting "local"); [reflexivity | ].
  destruct (py_in content_provider [OLLAMA; CUSTOM]); reflexivity.
Qed.

Lemma uses_local_after_resolve (w w' : World) (p : LLMProvider) :
  resolve w = (w', inr p) ->
  uses_local w = (w', inr (py_in p [OLLAMA; CUSTOM])).
Proof.
  intros Hr. unfold should_use_local_model_for_templates, bind.
  rewrite Hr. reflexivity.
Qed.

Lemma uses_api_after_resolve (w w' : World) (p : LLMProvider) :
  resolve w = (w', inr p) ->
  uses_api w = (w', inr (LLMProvider_eqb p OPENAI)).
Proof.
  intros Hr. unfold should_use_api_model_for_templates, bind.
  rewrite Hr. reflexivity.
Qed.

(** The selector writes nothing of its own: over lookups that leave the
    world as they found it, a call leaves the world as it found it, whether
    it returns or raises. *)
Lemma resolve_reads_only :
  (forall w, fst (get_template_llm_provider_env w) = w) ->
  (forall w, fst (get_llm_provider w) = w) ->
  forall w, fst (resolve w) = w.
Proof.
  intros Renv Rllm w. unfold get_template_llm_provider, bind.
  specialize (Renv w).
  destruct (get_template_llm_provider_env w) as [w1 [e | setting]];
    simpl in Renv; subst w1; [reflexivity | ].
  specialize (Rllm w).
  destruct (get_llm_provider w) as [w2 [e | content_provider]];
    simpl in Rllm; subst w2; [reflexivity | ].
  destruct (py_eq_str setting "api"); [reflexivity | ].
  destruct (py_eq_str setting "local"); [reflexivity | ].
  destruct (py_in content_provider [OLLAMA; CUSTOM]); reflexivity.
Qed.

(** C1: when the setting reads "api", the selector returns [OPENAI] whatever
    provider content generation uses, a self-hosted one included. *)
Theorem api_setting_selects_openai (w w1 w2 : World) content_provider :
  get_template_llm_provider_env w = (w1, inr (Some "api")) ->
  get_llm_provider w1 = (w2, inr content_provider) ->
  resolve w = (w2, inr OPENAI).
Proof.
  intros Hs Hc. rewrite (resolve_returns _ _ _ _ _ Hs Hc). reflexivity.
Qed.

(** C2: when the setting reads "local", the selector returns the content
    provider as it is, whichever member it is: [OPENAI] and members that are
    not self-hosted are handed back just the same. *)
Theorem local_setting_returns_content_provider
    (w w1 w2 : World) content_provider :
  get_template_llm_provider_env w = (w1, inr (Some "local")) ->
  get_llm_provider w1 = (w2, inr content_provider) ->
  resolve w = (w2, inr content_provider).
Proof.
  intros Hs Hc. rewrite (resolve_returns _ _ _ _ _ Hs Hc). reflexivity.
Qed.

(** C3: when the setting is neither "api" nor "local" (unset), a content
    provider that is [OLLAMA] or [CUSTOM] is returned unchanged, and any
    other content provider yields [OPENAI]. *)
Theorem unset_setting_default_policy
    (w w1 w2 : World) setting content_provider :
  setting <> Some "api" ->
  setting <> Some "local" ->
  get_template_llm_provider_env w = (w1, inr setting) ->
  get_llm_provider w1 = (w2, inr content_provider) ->
  (content_provider = OLLAMA \/ content_provider = CUSTOM ->
   resolve w = (w2, inr content_provider))
  /\ (content_provider <> OLLAMA /\ content_provider <> CUSTOM ->
      resolve w = (w2, inr OPENAI)).
Proof.
  intros Napi Nlocal Hs Hc.
  rewrite (resolve_returns _ _ _ _ _ Hs Hc).
  rewrite (branch_value_default _ _ Napi Nlocal).
  split; intros Hkind.
  - apply py_in_local_iff in Hkind. rewrite Hkind. reflexivity.
  - apply py_in_local_false_iff in Hkind. rewrite Hkind. reflexivity.
Qed.

(** C4: for every setting and content provider,
    [should_use_local_model_for_templates] returns true exactly when
    [get_template_llm_provider], called in the same world, yields [OLLAMA]
    or [CUSTOM], and false for every other provider. *)
Theorem uses_local_iff_resolved_local
    (w w1 w2 : World) setting content_provider :
  get_template_llm_provider_env w = (w1, inr setting) ->
  get_llm_provider w1 = (w2, inr content_provider) ->
  exists (p : LLMProvider) (b : bool),
    resolve w = (w2, inr p)
    /\ uses_local w = (w2, inr b)
    /\ (b = true <-> p = OLLAMA \/ p = CUSTOM)
    /\ (b = false <-> p <> OLLAMA /\ p <> CUSTOM).
Proof.
  intros Hs Hc.
  pose proof (resolve_returns _ _ _ _ _ Hs Hc) as Hr.
  exists (branch_value setting content_provider),
         (py_in (branch_value setting content_provider) [OLLAMA; CUSTOM]).
  split; [exact Hr | ].
  split; [exact (uses_local_after_resolve _ _ _ Hr) | ].
  split; [apply py_in_local_iff | apply py_in_local_false_iff].
Qed.

(** C5: for every setting and content provider,
    [should_use_api_model_for_templates] returns true exactly when
    [get_template_llm_provider], called in the same world, yields [OPENAI],
    and false for every other provider. *)
Theorem uses_api_iff_resolved_openai
    (w w1 w2 : World) setting content_provider :
  get_template_llm_provider_env w = (w1, inr setting) ->
  get_llm_provider w1 = (w2, inr content_provider) ->
  exists (p : LLMProvider) (b : bool),
    resolve w = (w2, inr p)
    /\ uses_api w = (w2, inr b)
    /\ (b = true <-> p = OPENAI)
    /\ (b = false <-> p <> OPENAI).
Proof.
  intros Hs Hc.
  pose proof (resolve_returns _ _ _ _ _ Hs Hc) as Hr.
  exists (branch_value setting content_provider),
         (LLMProvider_eqb (branch_value setting content_provider) OPENAI).
  split; [exact Hr | ].
  split; [exact (uses_api_after_resolve _ _ _ Hr) | ].
  split; [apply LLMProvider_eqb_true_iff | ].
  rewrite <- not_true_iff_false, LLMProvider_eqb_true_iff. tauto.
Qed.

(** C6: with the setting "api", "local" or unset and the content provider
    one of [OPENAI], [OLLAMA], [CUSTOM], exactly one of the two wrappers
    returns true. *)
Theorem exactly_one_wrapper_on_closed_set
    (w w1 w2 : World) setting content_provider :
  In setting [Some "api"; Some "local"; None] ->
  In content_provider [OPENAI; OLLAMA; CUSTOM] ->
  get_template_llm_provider_env w = (w1, inr setting) ->
  get_llm_provider w1 = (w2, inr content_provider) ->
  exists bl ba : bool,
    uses_local w = (w2, inr bl)
    /\ uses_api w = (w2, inr ba)
    /\ bl = negb ba.
Proof.
  intros Dsetting Dcontent Hs Hc.
  pose proof (resolve_returns _ _ _ _ _ Hs Hc) as Hr.
  exists (py_in (branch_value setting content_provider) [OLLAMA; CUSTOM]),
         (LLMProvider_eqb (branch_value setting content_provider) OPENAI).
  split; [exact (uses_local_after_resolve _ _ _ Hr) | ].
  split; [exact (uses_api_after_resolve _ _ _ Hr) | ].
  simpl in Dsetting, Dcontent.
  destruct Dsetting as [<- | [<- | [<- | []]]];
    destruct Dcontent as [<- | [<- | [<- | []]]]; reflexivity.
Qed.

(** C7: for every setting and content provider the two lookups return, the
    selector returns exactly one provider: it raises in no branch, and the
    world it leaves is the one the lookups left. *)
Theorem resolve_total (w w1 w2 : World) setting content_provider :
  get_template_llm_provider_env w = (w1, inr setting) ->
  get_llm_provider w1 = (w2, inr content_provider) ->
  exists! p : LLMProvider, resolve w = (w2, inr p).
Proof.
  intros Hs Hc.
  pose proof (resolve_returns _ _ _ _ _ Hs Hc) as Hr.
  exists (branch_value setting content_provider). split; [exact Hr | ].
  intros q Hq. rewrite Hr in Hq. congruence.
Qed.

(** C8: two calls that read the same setting and the same content provider
    return the same provider, whatever else differs between the worlds they
    run in, earlier calls included. *)
Theorem resolve_deterministic
    (w w1 w2 u u1 u2 : World) setting content_provider :
  get_template_llm_provider_env w = (w1, inr setting) ->
  get_llm_provider w1 = (w2, inr content_provider) ->
  get_template_llm_provider_env u = (u1, inr setting) ->
  get_llm_provider u1 = (u2, inr content_provider) ->
  snd (resolve w) = snd (resolve u).
Proof.
  intros Hs Hc Hs' Hc'.
  rewrite (resolve_returns _ _ _ _ _ Hs Hc), (resolve_returns _ _ _ _ _ Hs' Hc').
  reflexivity.
Qed.

(** C9: when either lookup raises, the selector raises the same exception,
    in the world the failed lookup left: nothing is caught or replaced, no
    provider is returned and no lookup is made again. *)
Theorem lookup_failure_propagates (w w' : World) (e : Exn) :
  lookup_raises get_template_llm_provider_env get_llm_provider w w' e ->
  resolve w = (w', inl e).
Proof.
  intros [Hs | w1 setting Hs Hc]; unfold get_template_llm_provider, bind.
  - rewrite Hs. reflexivity.
  - rewrite Hs, Hc. reflexivity.
Qed.

(** C10: a setting string other than "api" and "local" (another
    capitalisation, a typo, the empty string) is not rejected: the selector
    returns what it returns when the setting is unset, the default policy's
    choice. *)
Theorem unrecognised_setting_as_unset
    (w w1 w2 u u1 u2 : World) (s : string) content_provider :
  s <> "api" ->
  s <> "local" ->
  get_template_llm_provider_env w = (w1, inr (Some s)) ->
  get_llm_provider w1 = (w2, inr content_provider) ->
  get_template_llm_provider_env u = (u1, inr None) ->
  get_llm_provider u1 = (u2, inr content_provider) ->
  snd (resolve w) = snd (resolve u)
  /\ snd (resolve w)
     = inr (if py_in content_provider [OLLAMA; CUSTOM]
            then content_provider else OPENAI).
Proof.
  intros Napi Nlocal Hs Hc Hs' Hc'.
  rewrite (resolve_returns _ _ _ _ _ Hs Hc), (resolve_returns _ _ _ _ _ Hs' Hc').
  simpl.
  rewrite (branch_value_default (Some s) content_provider)
    by congruence.
  rewrite (branch_value_default None content_provider) by discriminate.
  split; reflexivity.
Qed.

End SelectorFacts.

(** ** The selector on fixed configurations *)

(** C1 at setting "api" with content generation on [OLLAMA]: two lookups,
    then [OPENAI]. *)
Lemma api_setting_selects_openai_witness :
  Fixture.resolve (Fixture.configured (Some "api") OLLAMA)
  = (Fixture.after 2 (Some "api") OLLAMA, inr OPENAI).
Proof.
  apply (api_setting_selects_openai
           Fixture.setting_lookup Fixture.content_lookup
           (Fixture.configured (Some "api") OLLAMA)
           (Fixture.after 1 (Some "api") OLLAMA)
           (Fixture.after 2 (Some "api") OLLAMA)
           OLLAMA); reflexivity.
Defined.

(** C2 at setting "local" with content generation on [OPENAI]. *)
Lemma local_setting_returns_content_provider_witness :
  Fixture.resolve (Fixture.configured (Some "local") OPENAI)
  = (Fixture.after 2 (Some "local") OPENAI, inr OPENAI).
Proof.
  apply (local_setting_returns_content_provider
           Fixture.setting_lookup Fixture.content_lookup
           (Fixture.configured (Some "local") OPENAI)
           (Fixture.after 1 (Some "local") OPENAI)
           (Fixture.after 2 (Some "local") OPENAI)
           OPENAI); reflexivity.
Defined.

(** C3 with the setting unset: [CUSTOM] is kept, a member that is not
    self-hosted gives [OPENAI]. *)
Lemma unset_setting_default_policy_witness :
  Fixture.resolve (Fixture.configured None CUSTOM)
  = (Fixture.after 2 None CUSTOM, inr CUSTOM)
  /\ Fixture.resolve (Fixture.configured None (OTHER "GOOGLE"))
     = (Fixture.after 2 None (OTHER "GOOGLE"), inr OPENAI).
Proof.
  split.
  - refine (proj1 (unset_setting_default_policy
                     Fixture.setting_lookup Fixture.content_lookup
                     (Fixture.configured None CUSTOM)
                     (Fixture.after 1 None CUSTOM)
                     (Fixture.after 2 None CUSTOM)
                     None CUSTOM _ _ _ _) _);
      first [discriminate | reflexivity | right; reflexivity].
  - refine (proj2 (unset_setting_default_policy
                     Fixture.setting_lookup Fixture.content_lookup
                     (Fixture.configured None (OTHER "GOOGLE"))
                     (Fixture.after 1 None (OTHER "GOOGLE"))
                     (Fixture.after 2 None (OTHER "GOOGLE"))
                     None (OTHER "GOOGLE") _ _ _ _) _);
      first [discriminate | reflexivity | split; discriminate].
Defined.

(** C4 at setting "local" with content generation on [OLLAMA]. *)
Lemma uses_local_iff_resolved_local_witness :
  exists (p : LLMProvider) (b : bool),
    Fixture.resolve (Fixture.configured (Some "local") OLLAMA)
    = (Fixture.after 2 (Some "local") OLLAMA, inr p)
    /\ Fixture.uses_local (Fixture.configured (Some "local") OLLAMA)
       = (Fixture.after 2 (Some "local") OLLAMA, inr b)
    /\ (b = true <-> p = OLLAMA \/ p = CUSTOM)
    /\ (b = false <-> p <> OLLAMA /\ p <> CUSTOM).
Proof.
  apply (uses_local_iff_resolved_local
           Fixture.setting_lookup Fixture.content_lookup
           (Fixture.configured (Some "local") OLLAMA)
           (Fixture.after 1 (Some "local") OLLAMA)
           (Fixture.after 2 (Some "local") OLLAMA)
           (Some "local") OLLAMA); reflexivity.
Defined.

(** C5 with the setting unset and content generation on [OPENAI]. *)
Lemma uses_api_iff_resolved_openai_witness :
  exists (p : LLMProvider) (b : bool),
    Fixture.resolve (Fixture.configured None OPENAI)
    = (Fixture.after 2 None OPENAI, inr p)
    /\ Fixture.uses_api (Fixture.configured None OPENAI)
       = (Fixture.after 2 None OPENAI, inr b)
    /\ (b = true <-> p = OPENAI)
    /\ (b = false <-> p <> OPENAI).
Proof.
  apply (uses_api_iff_resolved_openai
           Fixture.setting_lookup Fixture.content_lookup
           (Fixture.configured None OPENAI)
           (Fixture.after 1 None OPENAI)
           (Fixture.after 2 None OPENAI)
           None OPENAI); reflexivity.
Defined.

(** C6 at setting "api" with content generation on [CUSTOM]. *)
Lemma exactly_one_wrapper_on_closed_set_witness :
  exists bl ba : bool,
    Fixture.uses_local (Fixture.configured (Some "api") CUSTOM)
    = (Fixture.after 2 (Some "api") CUSTOM, inr bl)
    /\ Fixture.uses_api (Fixture.configured (Some "api") CUSTOM)
       = (Fixture.after 2 (Some "api") CUSTOM, inr ba)
    /\ bl = negb ba.
Proof.
  apply (exactly_one_wrapper_on_closed_set
           Fixture.setting_lookup Fixture.content_lookup
           (Fixture.configured (Some "api") CUSTOM)
           (Fixture.after 1 (Some "api") CUSTOM)
           (Fixture.after 2 (Some "api") CUSTOM)
           (Some "api") CUSTOM);
    first [reflexivity | simpl; tauto].
Defined.

(** Outside the three members the source names the wrappers need not be
    complementary: with the setting "local" and content generation on a
    fourth member, both return false. *)
Example wrappers_both_false_on_fourth_member :
  Fixture.uses_local (Fixture.configured (Some "local") (OTHER "GOOGLE"))
  = (Fixture.after 2 (Some "local") (OTHER "GOOGLE"), inr false)
  /\ Fixture.uses_api (Fixture.configured (Some "local") (OTHER "GOOGLE"))
     = (Fixture.after 2 (Some "local") (OTHER "GOOGLE"), inr false).
Proof. split; reflexivity. Qed.

(** C7 with the setting unset and content generation on [OLLAMA]. *)
Lemma resolve_total_witness :
  exists! p : LLMProvider,
    Fixture.resolve (Fixture.configured None OLLAMA)
    = (Fixture.after 2 None OLLAMA, inr p).
Proof.
  apply (resolve_total
           Fixture.setting_lookup Fixture.content_lookup
           (Fixture.configured None OLLAMA)
           (Fixture.after 1 None OLLAMA)
           (Fixture.after 2 None OLLAMA)
           None OLLAMA); reflexivity.
Defined.

(** C8 on a first call and on a second call made in the world the first one
    left. *)
Lemma resolve_deterministic_witness :
  snd (Fixture.resolve (Fixture.configured (Some "local") CUSTOM))
  = snd (Fixture.resolve (Fixture.after 2 (Some "local") CUSTOM)).
Proof.
  apply (resolve_deterministic
           Fixture.setting_lookup Fixture.content_lookup
           (Fixture.configured (Some "local") CUSTOM)
           (Fixture.after 1 (Some "local") CUSTOM)
           (Fixture.after 2 (Some "local") CUSTOM)
           (Fixture.after 2 (Some "local") CUSTOM)
           (Fixture.after 3 (Some "local") CUSTOM)
           (Fixture.after 4 (Some "local") CUSTOM)
           (Some "local") CUSTOM); reflexivity.
Defined.

(** C9 on a setting lookup that raises (one lookup made, the content
    provider never read) and on a content lookup that raises under the
    setting "api" (two lookups made). *)
Lemma lookup_failure_propagates_witness :
  Fixture.resolve (Fixture.mkConfig (inl "malformed setting") (inr OLLAMA) 0)
  = (Fixture.mkConfig (inl "malformed setting") (inr OLLAMA) 1,
     inl "malformed setting")
  /\ Fixture.resolve
       (Fixture.mkConfig (inr (Some "api")) (inl "invalid provider") 0)
     = (Fixture.mkConfig (inr (Some "api")) (inl "invalid provider") 2,
        inl "invalid provider").
Proof.
  split.
  - apply (lookup_failure_propagates
             Fixture.setting_lookup Fixture.content_lookup).
    apply setting_lookup_raises. reflexivity.
  - apply (lookup_failure_propagates
             Fixture.setting_lookup Fixture.content_lookup).
    apply content_lookup_raises
      with (w1 := Fixture.mkConfig (inr (Some "api")) (inl "invalid provider") 1)
           (setting := Some "api"); reflexivity.
Defined.

(** C10 at the setting "API" with content generation on [OLLAMA]: the
    capitalised directive is read as no directive, and [OLLAMA] is kept. *)
Lemma unrecognised_setting_as_unset_witness :
  snd (Fixture.resolve (Fixture.configured (Some "API") OLLAMA))
  = snd (Fixture.resolve (Fixture.configured None OLLAMA))
  /\ snd (Fixture.resolve (Fixture.configured (Some "API") OLLAMA))
     = inr OLLAMA.
Proof.
  apply (unrecognised_setting_as_unset
           Fixture.setting_lookup Fixture.content_lookup
           (Fixture.configured (Some "API") OLLAMA)
           (Fixture.after 1 (Some "API") OLLAMA)
           (Fixture.after 2 (Some "API") OLLAMA)
           (Fixture.configured None OLLAMA)
           (Fixture.after 1 None OLLAMA)
           (Fixture.after 2 None OLLAMA)
           "API" OLLAMA);
    first [discriminate | reflexivity].
Defined.

(** ** What the selector and its wrappers do, read off the inputs *)

(** The three ways through the branches. *)
Lemma branch_value_cases (setting : option string) (p : LLMProvider) :
  (setting = Some "api" /\ branch_value setting p = OPENAI)
  \/ (setting = Some "local" /\ branch_value setting p = p)
  \/ (setting <> Some "api" /\ setting <> Some "local"
      /\ branch_value setting p
         = if py_in p [OLLAMA; CUSTOM] then p else OPENAI).
Proof.
  unfold branch_value.
  destruct (py_eq_str setting "api") eqn:Eapi.
  { left. split; [apply py_eq_str_true_iff; exact Eapi | reflexivity]. }
  destruct (py_eq_str setting "local") eqn:Elocal.
  { right; left.
    split; [apply py_eq_str_true_iff; exact Elocal | reflexivity]. }
  right; right.
  repeat split; apply py_eq_str_false_iff; assumption.
Qed.

(** The branches applied to their own result change nothing. *)
Lemma branch_value_idempotent (setting : option string) (p : LLMProvider) :
  branch_value setting (branch_value setting p) = branch_value setting p.
Proof.
  unfold branch_value.
  destruct (py_eq_str setting "api"); [reflexivity | ].
  destruct (py_eq_str setting "local"); [reflexivity | ].
  destruct (py_in p [OLLAMA; CUSTOM]) eqn:Ein.
  - rewrite Ein. reflexivity.
  - reflexivity.
Qed.

Section SelectorBehaviour.
Context {World Exn : Type}.
Variable get_template_llm_provider_env : Eff World Exn (option string).
Variable get_llm_provider : Eff World Exn LLMProvider.

Local Abbreviation resolve :=
  (get_template_llm_provider get_template_llm_provider_env get_llm_provider).
Local Abbreviation uses_local :=
  (should_use_local_model_for_templates
     get_template_llm_provider_env get_llm_provider).
Local Abbreviation uses_api :=
  (should_use_api_model_for_templates
     get_template_llm_provider_env get_llm_provider).

(** X1: the two wrappers have no handler either: when a lookup raises, each
    wrapper raises the same exception in the world the failed lookup left,
    and returns neither true nor false. *)
Theorem wrappers_propagate_lookup_failure (w w' : World) (e : Exn) :
  lookup_raises get_template_llm_provider_env get_llm_provider w w' e ->
  uses_local w = (w', inl e) /\ uses_api w = (w', inl e).
Proof.
  intros [Hs | w1 setting Hs Hc];
    unfold should_use_local_model_for_templates,
           should_use_api_model_for_templates,
           get_template_llm_provider, bind.
  - rewrite Hs. split; reflexivity.
  - rewrite Hs, Hc. split; reflexivity.
Qed.

(** X2: [should_use_local_model_for_templates] returns true exactly when the
    setting is not "api" and content generation runs on [OLLAMA] or
    [CUSTOM]; the setting "local" alone does not make it true. *)
Theorem uses_local_from_inputs (w w1 w2 : World) setting content_provider :
  get_template_llm_provider_env w = (w1, inr setting) ->
  get_llm_provider w1 = (w2, inr content_provider) ->
  exists b : bool,
    uses_local w = (w2, inr b)
    /\ (b = true <->
        setting <> Some "api"
        /\ (content_provider = OLLAMA \/ content_provider = CUSTOM)).
Proof.
  intros Hs Hc.
  pose proof (resolve_returns _ _ _ _ _ _ _ Hs Hc) as Hr.
  exists (py_in (branch_value setting content_provider) [OLLAMA; CUSTOM]).
  split; [exact (uses_local_after_resolve _ _ _ _ _ Hr) | ].
  rewrite py_in_local_iff.
  destruct (branch_value_cases setting content_provider)
    as [[E ->] | [[E ->] | (Napi & Nlocal & ->)]].
  - split; [intros [H | H]; discriminate | intros [H _]; contradiction].
  - subst setting. split; [intros H; split; [discriminate | exact H] | tauto].
  - destruct (py_in content_provider [OLLAMA; CUSTOM]) eqn:Ein.
    + apply py_in_local_iff in Ein. tauto.
    + apply py_in_local_false_iff in Ein.
      split; [intros [H | H]; discriminate | tauto].
Qed.

(** X3: [should_use_api_model_for_templates] returns true exactly when the
    setting is "api", or content generation runs on [OPENAI], or the setting
    is not "local" and content generation runs on neither [OLLAMA] nor
    [CUSTOM]. *)
Theorem uses_api_from_inputs (w w1 w2 : World) setting content_provider :
  get_template_llm_provider_env w = (w1, inr setting) ->
  get_llm_provider w1 = (w2, inr content_provider) ->
  exists b : bool,
    uses_api w = (w2, inr b)
    /\ (b = true <->
        setting = Some "api"
        \/ content_provider = OPENAI
        \/ (setting <> Some "local"
            /\ content_provider <> OLLAMA /\ content_provider <> CUSTOM)).
Proof.
  intros Hs Hc.
  pose proof (resolve_returns _ _ _ _ _ _ _ Hs Hc) as Hr.
  exists (LLMProvider_eqb (branch_value setting content_provider) OPENAI).
  split; [exact (uses_api_after_resolve _ _ _ _ _ Hr) | ].
  rewrite LLMProvider_eqb_true_iff.
  destruct (branch_value_cases setting content_provider)
    as [[E ->] | [[E ->] | (Napi & Nlocal & ->)]].
  - tauto.
  - subst setting. split; [tauto | ].
    intros [H | [H | [H _]]]; [discriminate | exact H | congruence].
  - destruct (py_in content_provider [OLLAMA; CUSTOM]) eqn:Ein.
    + apply py_in_local_iff in Ein. split.
      * intros ->. destruct Ein; discriminate.
      * intros [H | [H | (_ & N1 & N2)]]; [contradiction | exact H | tauto].
    + apply py_in_local_false_iff in Ein. tauto.
Qed.

(** X4: for every member of the enumeration and every setting the two
    wrappers never both return true; they both return false exactly when
    the setting is "local" and content generation runs on a member other
    than [OPENAI], [OLLAMA] and [CUSTOM]. *)
Theorem wrappers_exclusive_everywhere
    (w w1 w2 : World) setting content_provider :
  get_template_llm_provider_env w = (w1, inr setting) ->
  get_llm_provider w1 = (w2, inr content_provider) ->
  exists bl ba : bool,
    uses_local w = (w2, inr bl)
    /\ uses_api w = (w2, inr ba)
    /\ bl && ba = false
    /\ (bl || ba = false <->
        setting = Some "local"
        /\ content_provider <> OPENAI
        /\ content_provider <> OLLAMA
        /\ content_provider <> CUSTOM).
Proof.
  intros Hs Hc.
  pose proof (resolve_returns _ _ _ _ _ _ _ Hs Hc) as Hr.
  exists (py_in (branch_value setting content_provider) [OLLAMA; CUSTOM]),
         (LLMProvider_eqb (branch_value setting content_provider) OPENAI).
  split; [exact (uses_local_after_resolve _ _ _ _ _ Hr) | ].
  split; [exact (uses_api_after_resolve _ _ _ _ _ Hr) | ].
  destruct (branch_value_cases setting content_provider)
    as [[E ->] | [[E ->] | (Napi & Nlocal & ->)]].
  - subst setting. simpl. split; [reflexivity | ].
    split; [discriminate | intros [H _]; discriminate].
  - subst setting.
    destruct content_provider as [ | | | m]; simpl;
      (split; [reflexivity | ]);
      (split; [try discriminate; intros _; repeat split; discriminate
              | try reflexivity; intros (_ & N1 & N2 & N3); congruence]).
  - destruct content_provider as [ | | | m]; simpl;
      (split; [reflexivity | ]);
      (split; [discriminate | intros [H _]; contradiction]).
Qed.

(** X5: the selector never returns a provider of its own choosing other
    than [OPENAI]: what it returns is [OPENAI] or the content provider. *)
Theorem resolve_openai_or_content_provider
    (w w1 w2 : World) setting content_provider :
  get_template_llm_provider_env w = (w1, inr setting) ->
  get_llm_provider w1 = (w2, inr content_provider) ->
  exists p : LLMProvider,
    resolve w = (w2, inr p) /\ (p = OPENAI \/ p = content_provider).
Proof.
  intros Hs Hc.
  exists (branch_value setting content_provider).
  split; [exact (resolve_returns _ _ _ _ _ _ _ Hs Hc) | ].
  destruct (branch_value_cases setting content_provider)
    as [[_ ->] | [[_ ->] | (_ & _ & ->)]]; auto.
  destruct (py_in content_provider [OLLAMA; CUSTOM]); auto.
Qed.

(** X6: unless the setting is "api", a content provider among [OPENAI],
    [OLLAMA] and [CUSTOM] is returned as it is: on these three members the
    setting "local" and an unset (or unrecognised) setting give the same
    answer. *)
Theorem named_content_provider_kept_unless_api
    (w w1 w2 : World) setting content_provider :
  setting <> Some "api" ->
  In content_provider [OPENAI; OLLAMA; CUSTOM] ->
  get_template_llm_provider_env w = (w1, inr setting) ->
  get_llm_provider w1 = (w2, inr content_provider) ->
  resolve w = (w2, inr content_provider).
Proof.
  intros Napi Dcontent Hs Hc.
  rewrite (resolve_returns _ _ _ _ _ _ _ Hs Hc). f_equal. f_equal.
  destruct (branch_value_cases setting content_provider)
    as [[E _] | [[_ ->] | (_ & _ & ->)]];
    [contradiction | reflexivity | ].
  simpl in Dcontent.
  destruct Dcontent as [<- | [<- | [<- | []]]]; reflexivity.
Qed.

(** X7: the selection is stable under its own answer: a call that reads the
    same setting and, as content provider, the provider an earlier call
    returned, returns that provider again. *)
Theorem resolve_stable_on_own_result
    (w w1 w2 u u1 u2 : World) setting content_provider (p : LLMProvider) :
  get_template_llm_provider_env w = (w1, inr setting) ->
  get_llm_provider w1 = (w2, inr content_provider) ->
  resolve w = (w2, inr p) ->
  get_template_llm_provider_env u = (u1, inr setting) ->
  get_llm_provider u1 = (u2, inr p) ->
  resolve u = (u2, inr p).
Proof.
  intros Hs Hc Hr Hs' Hc'.
  rewrite (resolve_returns _ _ _ _ _ _ _ Hs Hc) in Hr.
  injection Hr as <-.
  rewrite (resolve_returns _ _ _ _ _ _ _ Hs' Hc').
  rewrite branch_value_idempotent. reflexivity.
Qed.

End SelectorBehaviour.

(** ** The wrappers on fixed configurations *)

(** X1 on a content lookup that raises while the setting is "local". *)
Lemma wrappers_propagate_lookup_failure_witness :
  Fixture.uses_local
    (Fixture.mkConfig (inr (Some "local")) (inl "invalid provider") 0)
  = (Fixture.mkConfig (inr (Some "local")) (inl "invalid provider") 2,
     inl "invalid provider")
  /\ Fixture.uses_api
       (Fixture.mkConfig (inr (Some "local")) (inl "invalid provider") 0)
     = (Fixture.mkConfig (inr (Some "local")) (inl "invalid provider") 2,
        inl "invalid provider").
Proof.
  apply (wrappers_propagate_lookup_failure
           Fixture.setting_lookup Fixture.content_lookup).
  apply content_lookup_raises
    with (w1 := Fixture.mkConfig (inr (Some "local")) (inl "invalid provider") 1)
         (setting := Some "local"); reflexivity.
Defined.

(** X2 at setting "local" with content generation on [OPENAI]: the wrapper
    returns a boolean that is true only for a self-hosted content
    provider. *)
Lemma uses_local_from_inputs_witness :
  exists b : bool,
    Fixture.uses_local (Fixture.configured (Some "local") OPENAI)
    = (Fixture.after 2 (Some "local") OPENAI, inr b)
    /\ (b = true <->
        Some "local" <> Some "api" /\ (OPENAI = OLLAMA \/ OPENAI = CUSTOM)).
Proof.
  apply (uses_local_from_inputs
           Fixture.setting_lookup Fixture.content_lookup
           (Fixture.configured (Some "local") OPENAI)
           (Fixture.after 1 (Some "local") OPENAI)
           (Fixture.after 2 (Some "local") OPENAI)
           (Some "local") OPENAI); reflexivity.
Defined.

(** X3 with the setting unset and content generation on a fourth member. *)
Lemma uses_api_from_inputs_witness :
  exists b : bool,
    Fixture.uses_api (Fixture.configured None (OTHER "ANTHROPIC"))
    = (Fixture.after 2 None (OTHER "ANTHROPIC"), inr b)
    /\ (b = true <->
        None = Some "api"
        \/ OTHER "ANTHROPIC" = OPENAI
        \/ (None <> Some "local"
            /\ OTHER "ANTHROPIC" <> OLLAMA /\ OTHER "ANTHROPIC" <> CUSTOM)).
Proof.
  apply (uses_api_from_inputs
           Fixture.setting_lookup Fixture.content_lookup
           (Fixture.configured None (OTHER "ANTHROPIC"))
           (Fixture.after 1 None (OTHER "ANTHROPIC"))
           (Fixture.after 2 None (OTHER "ANTHROPIC"))
           None (OTHER "ANTHROPIC")); reflexivity.
Defined.

(** X4 at setting "local" with content generation on a fourth member. *)
Lemma wrappers_exclusive_everywhere_witness :
  exists bl ba : bool,
    Fixture.uses_local (Fixture.configured (Some "local") (OTHER "GOOGLE"))
    = (Fixture.after 2 (Some "local") (OTHER "GOOGLE"), inr bl)
    /\ Fixture.uses_api (Fixture.configured (Some "local") (OTHER "GOOGLE"))
       = (Fixture.after 2 (Some "local") (OTHER "GOOGLE"), inr ba)
    /\ bl && ba = false
    /\ (bl || ba = false <->
        Some "local" = Some "local"
        /\ OTHER "GOOGLE" <> OPENAI
        /\ OTHER "GOOGLE" <> OLLAMA
        /\ OTHER "GOOGLE" <> CUSTOM).
Proof.
  apply (wrappers_exclusive_everywhere
           Fixture.setting_lookup Fixture.content_lookup
           (Fixture.configured (Some "local") (OTHER "GOOGLE"))
           (Fixture.after 1 (Some "local") (OTHER "GOOGLE"))
           (Fixture.after 2 (Some "local") (OTHER "GOOGLE"))
           (Some "local") (OTHER "GOOGLE")); reflexivity.
Defined.

(** X5 with the setting unset and content generation on a fourth member. *)
Lemma resolve_openai_or_content_provider_witness :
  exists p : LLMProvider,
    Fixture.resolve (Fixture.configured None (OTHER "GOOGLE"))
    = (Fixture.after 2 None (OTHER "GOOGLE"), inr p)
    /\ (p = OPENAI \/ p = OTHER "GOOGLE").
Proof.
  apply (resolve_openai_or_content_provider
           Fixture.setting_lookup Fixture.content_lookup
           (Fixture.configured None (OTHER "GOOGLE"))
           (Fixture.after 1 None (OTHER "GOOGLE"))
           (Fixture.after 2 None (OTHER "GOOGLE"))
           None (OTHER "GOOGLE")); reflexivity.
Defined.

(** X6 at the unrecognised setting "Local" and at the setting "local", with
    content generation on [OPENAI] and on [OLLAMA]. *)
Lemma named_content_provider_kept_unless_api_witness :
  Fixture.resolve (Fixture.configured (Some "Local") OPENAI)
  = (Fixture.after 2 (Some "Local") OPENAI, inr OPENAI)
  /\ Fixture.resolve (Fixture.configured (Some "local") OLLAMA)
     = (Fixture.after 2 (Some "local") OLLAMA, inr OLLAMA).
Proof.
  split.
  - apply (named_content_provider_kept_unless_api
             Fixture.setting_lookup Fixture.content_lookup
             (Fixture.configured (Some "Local") OPENAI)
             (Fixture.after 1 (Some "Local") OPENAI)
             (Fixture.after 2 (Some "Local") OPENAI)
             (Some "Local") OPENAI);
      first [discriminate | reflexivity | simpl; tauto].
  - apply (named_content_provider_kept_unless_api
             Fixture.setting_lookup Fixture.content_lookup
             (Fixture.configured (Some "local") OLLAMA)
             (Fixture.after 1 (Some "local") OLLAMA)
             (Fixture.after 2 (Some "local") OLLAMA)
             (Some "local") OLLAMA);
      first [discriminate | reflexivity | simpl; tauto].
Defined.

(** X7 with the setting unset: content generation on a fourth member gives
    [OPENAI], and content generation on [OPENAI] gives [OPENAI] again. *)
Lemma resolve_stable_on_own_result_witness :
  Fixture.resolve (Fixture.configured None OPENAI)
  = (Fixture.after 2 None OPENAI, inr OPENAI).
Proof.
  apply (resolve_stable_on_own_result
           Fixture.setting_lookup Fixture.content_lookup
           (Fixture.configured None (OTHER "GOOGLE"))
           (Fixture.after 1 None (OTHER "GOOGLE"))
           (Fixture.after 2 None (OTHER "GOOGLE"))
           (Fixture.configured None OPENAI)
           (Fixture.after 1 None OPENAI)
           (Fixture.after 2 None OPENAI)
           None (OTHER "GOOGLE") OPENAI); reflexivity.
Defined.
